(** * Nadi Django adapter: renderer and middleware

    A shallow embedding of [nadi_django/__init__.py] ([NadiRenderer]) and
    [nadi_django/middleware.py] ([NadiMiddleware]), with the properties of
    the manifest loader, the asset tag builders, the render dispatcher and
    the response middleware. *)

From Stdlib Require Import List String Ascii ZArith Bool Lia.
From Stdlib Require Strings.Byte.
From ExtLib Require Import Structures.Monad Structures.MonadExc.
Import ListNotations.
Import MonadNotation.
Local Open Scope string_scope.
Local Open Scope monad_scope.

(** ** Python values and exceptions *)

Module Py.

(** The values [json.load] can produce, which are also the values the
    adapter passes around ([props], [options], the loaded manifest).  A
    [dict] is an association list in insertion order, the order [items()]
    iterates in; numbers are the integers. *)
#[warnings="-register-all"]
Inductive value : Type :=
| VNone
| VBool (b : bool)
| VInt (z : Z)
| VStr (s : string)
| VList (l : list value)
| VDict (d : list (string * value)).

Inductive exn : Type :=
| AttributeError
| KeyError (k : string)
| TypeError
| FileNotFoundError
| ValueError
| ImportError
| ConnectionError
| Timeout
| ImproperlyConfigured.

(** Outcome of evaluating a Python expression. *)
Inductive result (A : Type) : Type :=
| Return (a : A)
| Raise (e : exn).
Arguments Return {A} a.
Arguments Raise {A} e.

#[global] Instance Monad_result : Monad result :=
  {| ret := @Return;
     bind := fun _ _ m k => match m with Return a => k a | Raise e => Raise e end |}.

#[global] Instance Exc_result : MonadExc exn result :=
  {| raise := @Raise;
     catch := fun _ m h => match m with Return a => Return a | Raise e => h e end |}.

(** [bool(v)] *)
Definition truthy (v : value) : bool :=
  match v with
  | VNone => false
  | VBool b => b
  | VInt z => negb (Z.eqb z 0)
  | VStr s => negb (String.eqb s "")
  | VList l => match l with [] => false | _ :: _ => true end
  | VDict d => match d with [] => false | _ :: _ => true end
  end.

(** [a or b] *)
Definition py_or (a b : value) : value := if truthy a then a else b.

(** Lookup of a key in a dict's bindings. *)
Fixpoint lookup (k : string) (d : list (string * value)) : option value :=
  match d with
  | [] => None
  | (k', v) :: rest => if String.eqb k k' then Some v else lookup k rest
  end.

(** [d.get(k, default)]: only a dict has the method. *)
Definition get (d : value) (k : string) (default : value) : result value :=
  match d with
  | VDict b => Return (match lookup k b with Some v => v | None => default end)
  | _ => Raise AttributeError
  end.

(** [d[k]] for a string key [k]. *)
Definition getitem (d : value) (k : string) : result value :=
  match d with
  | VDict b => match lookup k b with Some v => Return v | None => Raise (KeyError k) end
  | _ => Raise TypeError
  end.

(** [d.items()] *)
Definition items (d : value) : result (list (string * value)) :=
  match d with
  | VDict b => Return b
  | _ => Raise AttributeError
  end.

Definition is_str (k : string) (v : value) : bool :=
  match v with VStr s => String.eqb s k | _ => false end.

(** [k in c] for a string [k]: key membership in a dict, element
    membership in a list, substring test in a string. *)
Definition contains (k : string) (c : value) : result bool :=
  match c with
  | VDict b => Return (match lookup k b with Some _ => true | None => false end)
  | VList l => Return (existsb (is_str k) l)
  | VStr s => Return (match String.index 0 k s with Some _ => true | None => false end)
  | _ => Raise TypeError
  end.

Fixpoint chars (s : string) : list value :=
  match s with
  | EmptyString => []
  | String c rest => VStr (String c EmptyString) :: chars rest
  end.

(** The elements [for x in v] ranges over. *)
Definition iter (v : value) : result (list value) :=
  match v with
  | VList l => Return l
  | VStr s => Return (chars s)
  | VDict b => Return (map (fun kv => VStr (fst kv)) b)
  | _ => Raise TypeError
  end.

(** A [for] loop whose body updates the accumulator [acc] and may raise. *)
Fixpoint for_each {A S : Type} (xs : list A) (acc : S)
    (body : S -> A -> result S) : result S :=
  match xs with
  | [] => ret acc
  | x :: rest => acc' <- body acc x ;; for_each rest acc' body
  end.

Definition newline : string := String "010"%char EmptyString.
Definition dquote : string := String "034"%char EmptyString.

(** [sep.join(l)] *)
Definition join (sep : string) (l : list string) : string := String.concat sep l.

(** The library functions the adapter calls whose results it only passes
    on: [json.load] on the bytes of a file, [json.dumps], the hex MD5
    digest, and [str()] of a value that is not a string. *)
Class Runtime : Type :=
  { json_load : list Byte.byte -> result value;
    json_dumps : value -> string;
    md5_hexdigest : list Byte.byte -> string;
    str_other : value -> string }.

(** [f'{v}'] *)
Definition format `{Runtime} (v : value) : string :=
  match v with VStr s => s | _ => str_other v end.

End Py.
Import Py.

(** ** The environment of the adapter *)

Module Env.

(** A [pathlib] path, as its components. *)
Definition path : Type := list string.

(** [p / name] *)
Definition div (p : path) (name : string) : path := (p ++ [name])%list.

(** The attributes of a configured [django.conf.settings] that the adapter
    reads; [None] is an attribute that is not set. *)
Record Attributes : Type :=
  { attr_BASE_DIR : option path;
    attr_NADI_SSR_URL : option string;
    attr_NADI_SSR_ENABLED : option value }.

(** [django.conf.settings]: configured, or not configured, in which case
    every access to an attribute raises [ImproperlyConfigured]. *)
Inductive Settings : Type :=
| Unconfigured
| Configured (attrs : Attributes).

Definition is_configured (s : Settings) : bool :=
  match s with Configured _ => true | Unconfigured => false end.

Definition BASE_DIR (s : Settings) : option path :=
  match s with Configured a => attr_BASE_DIR a | Unconfigured => None end.

Definition NADI_SSR_URL (s : Settings) : option string :=
  match s with Configured a => attr_NADI_SSR_URL a | Unconfigured => None end.

Definition NADI_SSR_ENABLED (s : Settings) : option value :=
  match s with Configured a => attr_NADI_SSR_ENABLED a | Unconfigured => None end.

(** The response object of [requests.post]: the outcome of its [json()]. *)
Record Response : Type :=
  { json : result value }.

(** What the adapter finds outside itself when a call runs: the settings,
    the readable files with their bytes, whether [requests] can be
    imported, and the outcome of a POST. *)
Record World : Type :=
  { settings : Settings;
    files : path -> option (list Byte.byte);
    requests_installed : bool;
    requests_post : string -> value -> Z -> result Response }.

(** The request object: header lookup and path. *)
Record HttpRequest : Type :=
  { headers_get : string -> option string;
    path_info : string }.

(** The calls that leave a method: opening a file, the POST to the SSR
    service, and a call of one of the renderer's own methods. *)
Inductive event : Type :=
| Open (p : path) (mode : string)
| Post (url : string) (body : value) (timeout : Z)
| Call (method : string).

(** A computation with its calls, in order, and its outcome. *)
Definition IO (A : Type) : Type := (list event * result A)%type.

#[global] Instance Monad_IO : Monad IO :=
  {| ret := fun _ a => ([], Return a);
     bind := fun _ _ m k =>
       match m with
       | (t, Return a) => let '(t', r) := k a in ((t ++ t')%list, r)
       | (t, Raise e) => (t, Raise e)
       end |}.

#[global] Instance Exc_IO : MonadExc exn IO :=
  {| raise := fun _ e => ([], Raise e);
     catch := fun _ m h =>
       match m with
       | (t, Return a) => (t, Return a)
       | (t, Raise e) => let '(t', r) := h e in ((t ++ t')%list, r)
       end |}.

Definition emit (e : event) : IO unit := ([e], Return tt).
Definition lift {A : Type} (m : result A) : IO A := ([], m).
Definition trace {A : Type} (m : IO A) : list event := fst m.
Definition outcome {A : Type} (m : IO A) : result A := snd m.

(** [getattr(settings, name, default)]: the default stands in for an
    attribute that is not set, not for settings that are not configured. *)
Definition getattr {A : Type} (s : Settings) (name : Settings -> option A)
    (default : A) : result A :=
  match s with
  | Unconfigured => Raise ImproperlyConfigured
  | Configured _ => Return (match name s with Some a => a | None => default end)
  end.

(** [settings.name] *)
Definition attr {A : Type} (s : Settings) (name : Settings -> option A) : result A :=
  match s with
  | Unconfigured => Raise ImproperlyConfigured
  | Configured _ =>
      match name s with Some x => Return x | None => Raise AttributeError end
  end.

(** [with open(p, mode) as f] and the read of the whole file in its body;
    the file is closed on every exit, which nothing here observes. *)
Definition open_read (w : World) (p : path) (mode : string) : IO (list Byte.byte) :=
  emit (Open p mode) ;;
  match files w p with
  | Some content => ret content
  | None => raise FileNotFoundError
  end.

(** [import requests] *)
Definition import_requests (w : World) : IO unit :=
  if requests_installed w then ret tt else raise ImportError.

(** [requests.post(url, json=body, timeout=timeout)] *)
Definition post (w : World) (url : string) (body : value) (timeout : Z) : IO Response :=
  emit (Post url body timeout) ;;
  lift (requests_post w url body timeout).

Definition is_post (e : event) : bool :=
  match e with Post _ _ _ => true | _ => false end.

Definition is_call (method : string) (e : event) : bool :=
  match e with Call m => String.eqb m method | _ => false end.

(** Number of calls of the SSR service in a trace. *)
Definition ssr_calls (t : list event) : nat := List.length (filter is_post t).

End Env.
Import Env.

(** ** [NadiRenderer] *)

Module NadiRenderer.

Section Methods.
Context {rt : Runtime}.

(** The attributes [__init__] sets. *)
Record t : Type :=
  { ssr_url : string;
    ssr_enabled : value;
    manifest : value }.

(** The [context] mapping of [render], with its six keys. *)
Record TemplateContext : Type :=
  { component : string;
    props : string;
    scripts : string;
    styles : string;
    html : value;
    head : value }.

(** The two things [render] returns: the [JsonResponse] of the mapping with
    keys component, props, url and version, and the template name with the
    context that [render] hands to the template engine of the framework. *)
Inductive RenderOutput : Type :=
| JsonPayload (component : string) (props : value) (url : string) (version : string)
| HtmlContext (template : value) (context : TemplateContext).

Definition set_html (v : value) (c : TemplateContext) : TemplateContext :=
  {| component := component c; props := props c; scripts := scripts c;
     styles := styles c; html := v; head := head c |}.

Definition set_head (v : value) (c : TemplateContext) : TemplateContext :=
  {| component := component c; props := props c; scripts := scripts c;
     styles := styles c; html := html c; head := v |}.

(** [settings.BASE_DIR / 'static' / 'build' / 'manifest.json'] *)
Definition manifest_path (w : World) : result path :=
  base <- attr (settings w) BASE_DIR ;;
  ret (div (div (div base "static") "build") "manifest.json").

Definition _load_manifest (w : World) : IO value :=
  catch
    (manifest_path <- lift (manifest_path w) ;;
     f <- open_read w manifest_path "r" ;;
     lift (json_load f))
    (fun _ => ret (VDict [])).

Definition __init__ (w : World) : IO t :=
  ssr_url <- lift (getattr (settings w) NADI_SSR_URL "http://localhost:13714") ;;
  ssr_enabled <- lift (getattr (settings w) NADI_SSR_ENABLED (VBool false)) ;;
  manifest <- _load_manifest w ;;
  ret {| ssr_url := ssr_url; ssr_enabled := ssr_enabled; manifest := manifest |}.

Definition fallback_script : string :=
  "<script type=" ++ dquote ++ "module" ++ dquote
  ++ " src=" ++ dquote ++ "/static/src/main.ts" ++ dquote ++ "></script>".

Definition script_tag (file : string) : string :=
  "<script type=" ++ dquote ++ "module" ++ dquote
  ++ " src=" ++ dquote ++ "/static/build/" ++ file ++ dquote ++ "></script>".

Definition link_tag (css_file : string) : string :=
  "<link rel=" ++ dquote ++ "stylesheet" ++ dquote
  ++ " href=" ++ dquote ++ "/static/build/" ++ css_file ++ dquote ++ ">".

Definition _get_scripts (self : t) : result string :=
  if negb (truthy (manifest self)) then
    ret fallback_script
  else
    entries <- items (manifest self) ;;
    scripts <- for_each entries []
      (fun scripts '(file, data) =>
         is_entry <- get data "isEntry" VNone ;;
         if truthy is_entry then
           f <- getitem data "file" ;;
           ret (scripts ++ [script_tag (format f)])%list
         else ret scripts) ;;
    ret (join newline scripts).

Definition _get_styles (self : t) : result string :=
  entries <- items (manifest self) ;;
  styles <- for_each entries []
    (fun styles '(file, data) =>
       has_css <- contains "css" data ;;
       if (has_css : bool) then
         css <- getitem data "css" ;;
         css_files <- iter css ;;
         for_each css_files styles
           (fun styles css_file => ret (styles ++ [link_tag (format css_file)])%list)
       else ret styles) ;;
  ret (join newline styles).

Definition _get_version (w : World) (self : t) : IO string :=
  catch
    (manifest_path <- lift (manifest_path w) ;;
     f <- open_read w manifest_path "rb" ;;
     ret (md5_hexdigest f))
    (fun _ => ret "dev").

(** [request.headers.get('X-Requested-With') == 'XMLHttpRequest'] *)
Definition is_xhr (request : HttpRequest) : bool :=
  match headers_get request "X-Requested-With" with
  | Some v => String.eqb v "XMLHttpRequest"
  | None => false
  end.

(** The [try] block of [render].  The two assignments update [context] in
    place, so the handler leaves it as the block had it when it stopped. *)
Definition ssr_block (w : World) (self : t) (component : string) (props : value)
    (context : TemplateContext) : IO TemplateContext :=
  catch
    (import_requests w ;;
     response <- post w (ssr_url self ++ "/render")
                   (VDict [("component", VStr component); ("props", props)]) 2 ;;
     data <- lift (json response) ;;
     html <- lift (get data "html" (VStr "")) ;;
     let context := set_html html context in
     catch
       (head <- lift (get data "head" (VStr "")) ;;
        ret (set_head head context))
       (fun _ => ret context))
    (fun _ => ret context).

Definition render (w : World) (self : t) (request : HttpRequest)
    (component : string) (props options : value) : IO RenderOutput :=
  let props := py_or props (VDict []) in
  let options := py_or options (VDict []) in
  if is_xhr request then
    version <- (emit (Call "_get_version") ;; _get_version w self) ;;
    ret (JsonPayload component props (path_info request) version)
  else
    let props_json := json_dumps props in
    scripts <- (emit (Call "_get_scripts") ;; lift (_get_scripts self)) ;;
    styles <- (emit (Call "_get_styles") ;; lift (_get_styles self)) ;;
    let context :=
      {| component := component; props := props_json; scripts := scripts;
         styles := styles; html := VStr ""; head := VStr "" |} in
    context <-
      (if truthy (ssr_enabled self) then
         ssr <- lift (get options "ssr" (VBool true)) ;;
         if truthy ssr then ssr_block w self component props context
         else ret context
       else ret context) ;;
    template <- lift (get options "template" (VStr "nadi/app.html")) ;;
    ret (HtmlContext template context).

(** The template tag [nadi_render]: a render for a fresh [HttpRequest()]. *)
Definition nadi_render (w : World) (nadi : t) (component : string) (props : value)
    : IO RenderOutput :=
  let request := {| headers_get := fun _ => None; path_info := "" |} in
  render w nadi request component (py_or props (VDict [])) VNone.

End Methods.

(** *** The documented manifest *)

(** The schema of the manifest file: a mapping from source identifiers to
    records with a string [file], an optional boolean [isEntry] and an
    optional list of strings [css].  Other keys are not constrained. *)
Definition is_string (v : value) : bool :=
  match v with VStr _ => true | _ => false end.

Definition conforms_record (data : value) : bool :=
  match data with
  | VDict fields =>
      match lookup "file" fields with Some (VStr _) => true | _ => false end
      && match lookup "isEntry" fields with
         | None | Some (VBool _) => true
         | _ => false
         end
      && match lookup "css" fields with
         | None => true
         | Some (VList l) => forallb is_string l
         | _ => false
         end
  | _ => false
  end.

Definition conforms (manifest : value) : bool :=
  match manifest with
  | VDict entries => forallb (fun kv => conforms_record (snd kv)) entries
  | _ => false
  end.

(** The record's [isEntry] flag is true. *)
Definition is_entry (data : value) : bool :=
  match data with
  | VDict fields =>
      match lookup "isEntry" fields with Some (VBool true) => true | _ => false end
  | _ => false
  end.

Definition str_of (v : value) : string :=
  match v with VStr s => s | _ => "" end.

(** The record's [file] value. *)
Definition file_of (data : value) : string :=
  match data with
  | VDict fields => match lookup "file" fields with Some v => str_of v | None => "" end
  | _ => ""
  end.

(** The record's [css] list. *)
Definition css_of (data : value) : list string :=
  match data with
  | VDict fields =>
      match lookup "css" fields with Some (VList l) => map str_of l | _ => [] end
  | _ => []
  end.

(** The script references as the specification words them: the fallback
    for the empty manifest, else one reference per entry flagged
    [isEntry], in iteration order, joined with newlines. *)
Definition scripts_spec (entries : list (string * value)) : string :=
  match entries with
  | [] => fallback_script
  | _ :: _ =>
      join newline
        (map (fun kv => script_tag (file_of (snd kv)))
             (filter (fun kv => is_entry (snd kv)) entries))
  end.

(** The stylesheet references as the specification words them: one per
    element of each entry's [css] list, in order, joined with newlines. *)
Definition styles_spec (entries : list (string * value)) : string :=
  join newline (flat_map (fun kv => map link_tag (css_of (snd kv))) entries).

(** The bytes of the manifest file as a call finds them. *)
Definition manifest_bytes (w : World) : option (list Byte.byte) :=
  match manifest_path w with
  | Return p => files w p
  | Raise _ => None
  end.

(** The version as the specification words it: the digest of the bytes of
    the manifest file, or the literal [dev] when it cannot be read. *)
Definition version_spec `{Runtime} (w : World) : string :=
  match manifest_bytes w with
  | Some content => md5_hexdigest content
  | None => "dev"
  end.




End NadiRenderer.

(** ** [NadiMiddleware] *)

Module NadiMiddleware.

(** The response object: its headers, by name, and its body. *)
Record HttpResponse : Type :=
  { headers : string -> option string;
    content : string }.

(** [response[name] = v] *)
Definition setitem (name v : string) (response : HttpResponse) : HttpResponse :=
  {| headers := fun n => if String.eqb n name then Some v else headers response n;
     content := content response |}.

(** The token provider of the framework, [django.middleware.csrf.get_token],
    as the one call that [__call__] makes sees it.  The provider masks the
    token afresh on every call, so nothing here relates the results of two
    calls. *)
Class Framework : Type :=
  { get_token : HttpRequest -> string }.

(** The attribute [__init__] sets.  The handler the framework passes in
    turns exceptions of the view into responses, so it is a function. *)
Record t : Type :=
  { get_response : HttpRequest -> HttpResponse }.

Definition __init__ (get_response : HttpRequest -> HttpResponse) : t :=
  {| get_response := get_response |}.

(** [bool(request.headers.get(name))] *)
Definition header_truthy (request : HttpRequest) (name : string) : bool :=
  truthy (match headers_get request name with Some v => VStr v | None => VNone end).

Definition __call__ `{Framework} (self : t) (request : HttpRequest) : HttpResponse :=
  let response := get_response self request in
  let response := setitem "X-Nadi-Version" "0.2.0" response in
  if header_truthy request "X-Nadi" then
    setitem "X-CSRF-Token" (get_token request) response
  else response.

(** The claim that the response carries the CSRF header exactly when the
    request carries the marker header. *)
Definition csrf_iff_marker `{Framework} (self : t) (request : HttpRequest) : Prop :=
  headers (__call__ self request) "X-CSRF-Token" <> None
  <-> headers_get request "X-Nadi" <> None.

End NadiMiddleware.

(** ** Concrete environments *)

Module Sample.
Import NadiRenderer.

Definition bytes (s : string) : list Byte.byte := String.list_byte_of_string s.

Definition bytes_eqb (a b : list Byte.byte) : bool :=
  if list_eq_dec Byte.byte_eq_dec a b then true else false.

(** A runtime that agrees with the Python library on the inputs of the
    examples below: the texts [{}] and [[1]], the digests of those and of
    the empty file, the dump of the empty mapping, [str()] of a boolean and
    of [None].  On other inputs its results are placeholders. *)
#[global] Instance runtime : Runtime :=
  {| json_load := fun b =>
       if bytes_eqb b (bytes "{}") then Return (VDict [])
       else if bytes_eqb b (bytes "[1]") then Return (VList [VInt 1])
       else Raise ValueError;
     json_dumps := fun v =>
       match v with VDict [] => "{}" | _ => "null" end;
     md5_hexdigest := fun b =>
       if bytes_eqb b (bytes "{}") then "99914b932bd37a50b983c5e7c90ae93b"
       else if bytes_eqb b (bytes "[1]") then "35dba5d75538a9bbe0b4da4422759a0e"
       else "d41d8cd98f00b204e9800998ecf8427e";
     str_other := fun v =>
       match v with VBool true => "True" | VBool false => "False" | _ => "None" end |}.

Definition manifest_file : path := ["srv"; "static"; "build"; "manifest.json"].

Definition path_eqb (a b : path) : bool :=
  if list_eq_dec string_dec a b then true else false.

(** A world with SSR switched on, whose manifest file has the given text
    (or is missing) and whose SSR service answers as given. *)
Definition world (manifest_text : option string) (answer : result Response) : World :=
  {| settings :=
       Configured
         {| attr_BASE_DIR := Some ["srv"];
            attr_NADI_SSR_URL := None;
            attr_NADI_SSR_ENABLED := Some (VBool true) |};
     files := fun p =>
       if path_eqb p manifest_file then option_map bytes manifest_text else None;
     requests_installed := true;
     requests_post := fun _ _ _ => answer |}.

Definition unreachable : result Response := Raise ConnectionError.
Definition not_json : result Response := Return {| json := Raise ValueError |}.
Definition html_only : result Response :=
  Return {| json := Return (VDict [("html", VStr "<div>x</div>")]) |}.
Definition html_and_head : result Response :=
  Return {| json := Return (VDict [("html", VStr "<div>x</div>");
                                   ("head", VStr "<title>t</title>")]) |}.

(** The manifest of the specification's scenario, with a second record
    that is not an entry. *)
Definition scenario_manifest : value :=
  VDict [("main.ts", VDict [("file", VStr "main.abc123.js");
                            ("isEntry", VBool true);
                            ("css", VList [VStr "main.xyz.css"])]);
         ("util.ts", VDict [("file", VStr "util.def456.js")])].

Definition renderer (loaded : value) : NadiRenderer.t :=
  {| ssr_url := "http://localhost:13714";
     ssr_enabled := VBool true;
     manifest := loaded |}.

(** The renderer that loaded the scenario's manifest, its tags, and the
    context of a full-page render of the component [Home] without props. *)
Definition scenario_renderer : NadiRenderer.t := renderer scenario_manifest.
Definition scenario_scripts : string := script_tag "main.abc123.js".
Definition scenario_styles : string := link_tag "main.xyz.css".

Definition scenario_context (html head : value) : TemplateContext :=
  {| component := "Home"; props := "{}";
     scripts := scenario_scripts; styles := scenario_styles;
     html := html; head := head |}.

Definition request (hs : list (string * string)) : HttpRequest :=
  {| headers_get := fun name =>
       match lookup name (map (fun kv => (fst kv, VStr (snd kv))) hs) with
       | Some (VStr v) => Some v
       | _ => None
       end;
     path_info := "/dashboard" |}.

Definition page_request : HttpRequest := request [].
Definition xhr_request : HttpRequest := request [("X-Requested-With", "XMLHttpRequest")].
Definition marker_request : HttpRequest := request [("X-Nadi", "true")].
Definition empty_marker_request : HttpRequest := request [("X-Nadi", "")].

#[global] Instance framework : NadiMiddleware.Framework :=
  {| NadiMiddleware.get_token := fun _ => "k3yT0k3n" |}.

Definition middleware : NadiMiddleware.t :=
  NadiMiddleware.__init__
    (fun _ => {| NadiMiddleware.headers := fun _ => None;
                 NadiMiddleware.content := "ok" |}).

End Sample.

(** ** What the methods do with any loaded value *)

Module Shapes.
Import NadiRenderer.

(** The module-level [nadi = NadiRenderer()], built when the module is
    imported. *)
Definition nadi (w : World) : IO NadiRenderer.t := NadiRenderer.__init__ w.

Definition returns {A : Type} (m : result A) : bool :=
  match m with Return _ => true | Raise _ => false end.

(** [bool(data.get('isEntry'))] of a record that is a dict. *)
Definition entry_flag (data : value) : bool :=
  match data with
  | VDict fields =>
      truthy (match lookup "isEntry" fields with Some v => v | None => VNone end)
  | _ => false
  end.

(** [data['file']] of a record that has the key. *)
Definition file_value (data : value) : value :=
  match data with
  | VDict fields => match lookup "file" fields with Some v => v | None => VNone end
  | _ => VNone
  end.

(** The records the loop of [_get_scripts] gets past: dicts that have a
    [file] whenever their [isEntry] is truthy. *)
Definition scripts_record_ok (data : value) : bool :=
  match data with
  | VDict fields =>
      if entry_flag data
      then match lookup "file" fields with Some _ => true | None => false end
      else true
  | _ => false
  end.

(** What the inner loop of [_get_styles] ranges over for a record: the
    elements of a list, the characters of a string, the keys of a dict. *)
Definition css_elements (data : value) : list value :=
  match data with
  | VDict fields =>
      match lookup "css" fields with
      | Some v => match iter v with Return l => l | Raise _ => [] end
      | None => []
      end
  | _ => []
  end.

(** The records the loop of [_get_styles] gets past: dicts without [css]
    or with an iterable one, and lists and strings in which [css] does not
    occur. *)
Definition styles_record_ok (data : value) : bool :=
  match data with
  | VDict fields =>
      match lookup "css" fields with Some v => returns (iter v) | None => true end
  | VList l => negb (existsb (is_str "css") l)
  | VStr s => match String.index 0 "css" s with Some _ => false | None => true end
  | _ => false
  end.

(** The manifest file cannot be read, or does not decode. *)
Definition manifest_unavailable `{Runtime} (w : World) : Prop :=
  forall content, manifest_bytes w = Some content -> returns (json_load content) = false.

Definition is_open (e : event) : bool :=
  match e with Open _ _ => true | _ => false end.

Definition is_mapping (v : value) : bool :=
  match v with VDict _ => true | _ => false end.




(** The text of a manifest file with the two records of the scenario, and
    a runtime that decodes it as [json.load] does and is the sample
    runtime otherwise. *)
Definition scenario_text : string :=
  let q := dquote in
  "{" ++ q ++ "main.ts" ++ q ++ ": {" ++ q ++ "file" ++ q ++ ": " ++ q
  ++ "main.abc123.js" ++ q ++ ", " ++ q ++ "isEntry" ++ q ++ ": true, " ++ q
  ++ "css" ++ q ++ ": [" ++ q ++ "main.xyz.css" ++ q ++ "]}, " ++ q ++ "util.ts"
  ++ q ++ ": {" ++ q ++ "file" ++ q ++ ": " ++ q ++ "util.def456.js" ++ q ++ "}}".

Definition scenario_runtime : Runtime :=
  {| json_load := fun b =>
       if Sample.bytes_eqb b (Sample.bytes scenario_text)
       then Return Sample.scenario_manifest
       else @json_load Sample.runtime b;
     json_dumps := @json_dumps Sample.runtime;
     md5_hexdigest := @md5_hexdigest Sample.runtime;
     str_other := @str_other Sample.runtime |}.

(** A handler that set both headers itself, and a manifest off the
    documented schema: [isEntry] is a number, [css] is a string, a record
    has no [file]. *)
Definition eager_handler : NadiMiddleware.t :=
  NadiMiddleware.__init__
    (fun _ => {| NadiMiddleware.headers := fun name =>
                   if String.eqb name "X-Nadi-Version" then Some "0.0.1"
                   else if String.eqb name "X-CSRF-Token" then Some "stale"
                   else if String.eqb name "Content-Type" then Some "text/html"
                   else None;
                 NadiMiddleware.content := "<html></html>" |}).

Definition loose_manifest : value :=
  VDict [("main.ts", VDict [("file", VStr "main.js"); ("isEntry", VInt 1);
                            ("css", VStr "a.c")]);
         ("util.ts", VDict [("isEntry", VNone)])].

(** The same with a record that is a list. *)
Definition notes_manifest : value :=
  VDict [("main.ts", VDict [("file", VStr "main.js"); ("isEntry", VInt 1);
                            ("css", VStr "a.c")]);
         ("notes", VList [VStr "todo"])].

End Shapes.

(** ** Loops and lookups *)

Section Loops.

Lemma for_each_append {A B : Type} (P : A -> Prop) (g : A -> list B)
    (body : list B -> A -> result (list B)) :
  (forall acc x, P x -> body acc x = Return (acc ++ g x)%list) ->
  forall xs acc, Forall P xs ->
    for_each xs acc body = Return (acc ++ flat_map g xs)%list.
Proof.
  intros Hbody xs. induction xs as [|x rest IH]; intros acc Hall; simpl.
  - now rewrite app_nil_r.
  - inversion Hall as [|? ? Hx Hrest]; subst.
    rewrite (Hbody acc x Hx). rewrite (IH _ Hrest).
    now rewrite <- app_assoc.
Qed.

Lemma flat_map_singleton {A B : Type} (f : A -> B) (l : list A) :
  flat_map (fun x => [f x]) l = map f l.
Proof. induction l as [|x l IH]; simpl; congruence. Qed.

Lemma flat_map_filter {A B : Type} (p : A -> bool) (f : A -> B) (l : list A) :
  flat_map (fun x => if p x then [f x] else []) l = map f (filter p l).
Proof.
  induction l as [|x l IH]; simpl; [reflexivity|].
  destruct (p x); simpl; congruence.
Qed.

Lemma forallb_Forall {A : Type} (p : A -> bool) (l : list A) :
  forallb p l = true -> Forall (fun x => p x = true) l.
Proof. intros H. apply Forall_forall. now apply forallb_forall. Qed.

End Loops.

(** ** The asset tag builders on a documented manifest *)

Module BuilderFacts.
Import NadiRenderer.

Section WithRuntime.
Context {rt : Runtime}.

(** One record of a documented manifest through the body of the loop of
    [_get_scripts]. *)
Lemma scripts_step (acc : list string) (kv : string * value) :
  conforms_record (snd kv) = true ->
  (let '(file, data) := kv in
   is_entry <- get data "isEntry" VNone ;;
   if truthy is_entry then
     f <- getitem data "file" ;;
     ret (acc ++ [script_tag (format f)])%list
   else ret acc)
  = Return (acc ++ (if is_entry (snd kv) then [script_tag (file_of (snd kv))] else []))%list.
Proof.
  destruct kv as [file data]; simpl.
  destruct data as [| | | | |fields]; simpl; try discriminate.
  intros H. apply andb_prop in H as [H _]. apply andb_prop in H as [Hfile Hentry].
  destruct (lookup "isEntry" fields) as [[| [|] | | | |]|]; simpl; try discriminate;
    try now rewrite app_nil_r.
  destruct (lookup "file" fields) as [[| | |s| |]|]; simpl; try discriminate.
  reflexivity.
Qed.

(** One record of a documented manifest through the body of the loop of
    [_get_styles]. *)
Lemma styles_step (acc : list string) (kv : string * value) :
  conforms_record (snd kv) = true ->
  (let '(file, data) := kv in
   has_css <- contains "css" data ;;
   if (has_css : bool) then
     css <- getitem data "css" ;;
     css_files <- iter css ;;
     for_each css_files acc
       (fun styles css_file => ret (styles ++ [link_tag (format css_file)])%list)
   else ret acc)
  = Return (acc ++ map link_tag (css_of (snd kv)))%list.
Proof.
  destruct kv as [file data]; simpl.
  destruct data as [| | | | |fields]; simpl; try discriminate.
  intros H. apply andb_prop in H as [_ Hcss].
  destruct (lookup "css" fields) as [[| | | |l|]|]; simpl; try discriminate;
    try now rewrite app_nil_r.
  rewrite (for_each_append (fun v => is_string v = true)
             (fun v => [link_tag (str_of v)])).
  - now rewrite flat_map_singleton, map_map.
  - intros styles [| | |s| |] Hs; simpl in *; try discriminate. reflexivity.
  - now apply forallb_Forall.
Qed.

Lemma get_scripts_documented (self : t) (entries : list (string * value)) :
  manifest self = VDict entries ->
  conforms (manifest self) = true ->
  _get_scripts self = Return (scripts_spec entries).
Proof.
  intros Hm Hc. unfold _get_scripts. rewrite Hm in *. simpl in Hc.
  destruct entries as [|e rest]; [reflexivity|].
  cbn [truthy negb items bind Monad_result ret].
  rewrite (for_each_append (fun kv => conforms_record (snd kv) = true)
             (fun kv => if is_entry (snd kv) then [script_tag (file_of (snd kv))] else [])).
  - unfold scripts_spec. now rewrite flat_map_filter.
  - intros acc kv Hkv. rewrite <- (scripts_step acc kv Hkv). now destruct kv.
  - now apply forallb_Forall.
Qed.

Lemma get_styles_documented (self : t) (entries : list (string * value)) :
  manifest self = VDict entries ->
  conforms (manifest self) = true ->
  _get_styles self = Return (styles_spec entries).
Proof.
  intros Hm Hc. unfold _get_styles. rewrite Hm in *. simpl in Hc.
  cbn [items bind Monad_result ret].
  rewrite (for_each_append (fun kv => conforms_record (snd kv) = true)
             (fun kv => map link_tag (css_of (snd kv)))).
  - reflexivity.
  - intros acc kv Hkv. rewrite <- (styles_step acc kv Hkv). now destruct kv.
  - now apply forallb_Forall.
Qed.

End WithRuntime.
End BuilderFacts.

(** ** The manifest loader and the version *)

Module LoaderFacts.
Import NadiRenderer.

Section WithRuntime.
Context {rt : Runtime}.

Lemma load_manifest_outcome (w : World) :
  outcome (_load_manifest w)
  = Return (match manifest_bytes w with
            | None => VDict []
            | Some content =>
                match json_load content with
                | Return v => v
                | Raise _ => VDict []
                end
            end).
Proof.
  unfold _load_manifest, manifest_bytes, manifest_path, open_read.
  unfold attr. destruct (settings w) as [|attrs]; simpl; [reflexivity|].
  destruct (attr_BASE_DIR attrs) as [base|]; simpl; [|reflexivity].
  destruct (files w _) as [content|]; simpl; [|reflexivity].
  destruct (json_load content); reflexivity.
Qed.

Lemma get_version_outcome (w : World) (self : t) :
  outcome (_get_version w self) = Return (version_spec w).
Proof.
  unfold _get_version, version_spec, manifest_bytes, manifest_path, open_read.
  unfold attr. destruct (settings w) as [|attrs]; simpl; [reflexivity|].
  destruct (attr_BASE_DIR attrs) as [base|]; simpl; [|reflexivity].
  destruct (files w _) as [content|]; reflexivity.
Qed.

(** [_get_version] only opens files. *)
Lemma get_version_trace (w : World) (self : t) :
  forall ev, In ev (trace (_get_version w self)) -> exists p mode, ev = Open p mode.
Proof.
  unfold _get_version, manifest_path, open_read.
  unfold attr. destruct (settings w) as [|attrs]; simpl; [tauto|].
  destruct (attr_BASE_DIR attrs) as [base|]; simpl; [|tauto].
  destruct (files w _) as [content|]; simpl; intros ev [<-|[]]; eauto.
Qed.

(** C1 (as amended): the loader never raises; it returns the empty mapping
    when the manifest file cannot be read or its content is not JSON, and
    otherwise returns the decoded content as it is, whatever its shape. *)
Theorem load_manifest_total (w : World) :
  exists loaded,
    outcome (_load_manifest w) = Return loaded
    /\ loaded = match manifest_bytes w with
                | None => VDict []
                | Some content =>
                    match json_load content with
                    | Return v => v
                    | Raise _ => VDict []
                    end
                end.
Proof. eexists. split; [apply load_manifest_outcome | reflexivity]. Qed.

(** C10: the version depends only on the bytes of the manifest file when
    [_get_version] is called: two renderers get the same version whenever
    the file has the same content for both calls, whatever manifests they
    loaded. *)
Theorem get_version_depends_on_file_only (w1 w2 : World) (self1 self2 : t) :
  manifest_bytes w1 = manifest_bytes w2 ->
  outcome (_get_version w1 self1) = outcome (_get_version w2 self2).
Proof.
  intros Hsame. rewrite !get_version_outcome. unfold version_spec.
  now rewrite Hsame.
Qed.

End WithRuntime.

(** A JSON array in the manifest file is loaded as it is: the result is
    neither the empty mapping nor a documented manifest. *)
Lemma load_manifest_array_counterexample :
  outcome (_load_manifest (Sample.world (Some "[1]") Sample.unreachable))
  = Return (VList [VInt 1])
  /\ conforms (VList [VInt 1]) = false
  /\ VList [VInt 1] <> VDict [].
Proof. repeat split; try reflexivity. discriminate. Qed.

(** A renderer that loaded the scenario's manifest and one that loaded
    nothing get the same version from the same file. *)
Lemma get_version_depends_on_file_only_witness :
  manifest_bytes (Sample.world (Some "{}") Sample.unreachable)
  = manifest_bytes (Sample.world (Some "{}") Sample.html_only)
  /\ outcome (_get_version (Sample.world (Some "{}") Sample.unreachable)
                (Sample.renderer Sample.scenario_manifest))
     = outcome (_get_version (Sample.world (Some "{}") Sample.html_only)
                  (Sample.renderer (VDict []))).
Proof.
  split; [reflexivity|].
  apply (get_version_depends_on_file_only
           (Sample.world (Some "{}") Sample.unreachable)
           (Sample.world (Some "{}") Sample.html_only)).
  reflexivity.
Defined.

(** The version follows the file while the tags follow the manifest loaded
    at construction. *)
Example version_changes_tags_stay :
  let before := Sample.world (Some "{}") Sample.unreachable in
  let after := Sample.world (Some "[1]") Sample.unreachable in
  exists self,
    outcome (__init__ before) = Return self
    /\ outcome (_get_version before self) = Return "99914b932bd37a50b983c5e7c90ae93b"
    /\ outcome (_get_version after self) = Return "35dba5d75538a9bbe0b4da4422759a0e"
    /\ _get_scripts self = Return fallback_script.
Proof. eexists. repeat split. Qed.

End LoaderFacts.

(** ** The render dispatcher *)

Module RenderFacts.
Import NadiRenderer.

Section WithRuntime.
Context {rt : Runtime}.

Lemma options_mapping (o : list (string * value)) :
  py_or (VDict o) (VDict []) = VDict o.
Proof. now destruct o. Qed.


(** A JSON object as answer: each of [html] and [head] is copied if the
    object has the key and is the empty string if not. *)
Lemma ssr_block_object (w : World) (self : t) (comp : string) (body : value)
    (context : TemplateContext) (r : Response) (d : list (string * value)) :
  requests_installed w = true ->
  requests_post w (ssr_url self ++ "/render")
    (VDict [("component", VStr comp); ("props", body)]) 2 = Return r ->
  json r = Return (VDict d) ->
  outcome (ssr_block w self comp body context)
  = Return (set_head (match lookup "head" d with Some v => v | None => VStr "" end)
              (set_html (match lookup "html" d with Some v => v | None => VStr "" end)
                 context)).
Proof.
  intros Hi Hp Hj. unfold ssr_block, import_requests, post.
  rewrite Hi. simpl. rewrite Hp. simpl. rewrite Hj. reflexivity.
Qed.

(** The [try] block never raises. *)
Lemma ssr_block_returns (w : World) (self : t) (comp : string) (body : value)
    (context : TemplateContext) :
  exists context', outcome (ssr_block w self comp body context) = Return context'.
Proof.
  unfold ssr_block, import_requests, post.
  destruct (requests_installed w); simpl; [|eauto].
  destruct (requests_post w _ _ 2) as [r|e]; simpl; [|eauto].
  destruct (json r) as [data|e]; simpl; [|eauto].
  destruct data; simpl; eauto.
Qed.

(** The SSR service is called at most once by the [try] block. *)
Lemma ssr_block_calls (w : World) (self : t) (comp : string) (body : value)
    (context : TemplateContext) :
  ssr_calls (trace (ssr_block w self comp body context)) <= 1.
Proof.
  unfold ssr_block, import_requests, post.
  destruct (requests_installed w); simpl; [|auto].
  destruct (requests_post w _ _ 2) as [r|e]; simpl; [|auto].
  destruct (json r) as [data|e]; simpl; [|auto].
  destruct data; simpl; auto.
Qed.

Ltac run_block H :=
  match goal with
  | |- context [ssr_block ?w ?s ?c ?b ?x] =>
      pose proof H as Hrun; unfold outcome in Hrun;
      destruct (ssr_block w s c b x) as [tb rb]; simpl in Hrun; subst rb; simpl
  end.


Lemma render_xhr (w : World) (self : t) (request : HttpRequest)
    (comp : string) (props options : value) :
  is_xhr request = true ->
  render w self request comp props options
  = ((Call "_get_version" :: trace (_get_version w self))%list,
     Return (JsonPayload comp (py_or props (VDict [])) (path_info request)
               (version_spec w))).
Proof.
  intros Hx. unfold render. rewrite Hx.
  pose proof (LoaderFacts.get_version_outcome w self) as Hv.
  unfold outcome in Hv. unfold trace.
  destruct (_get_version w self) as [tv rv]. simpl in *. subst rv.
  now rewrite app_nil_r.
Qed.

Lemma no_post_in_opens (t : list event) :
  (forall ev, In ev t -> exists p mode, ev = Open p mode) ->
  forall q, (forall p mode, q (Open p mode) = false) -> filter q t = [].
Proof.
  intros Hopen q Hq. induction t as [|ev t IH]; [reflexivity|]. simpl.
  destruct (Hopen ev (or_introl eq_refl)) as (p & mode & ->).
  rewrite Hq. apply IH. intros ev' Hin. apply Hopen. now right.
Qed.



(** C3: for a request with [X-Requested-With: XMLHttpRequest], [render]
    returns the JSON payload of the given component and props, the path of
    the request and the result of [_get_version]; it makes no call of the
    SSR service and no call of [_get_scripts] or [_get_styles]. *)
Theorem render_xhr_payload (w : World) (self : t) (request : HttpRequest)
    (comp : string) (props options : value) (d : list (string * value)) :
  is_xhr request = true ->
  exists version,
    outcome (_get_version w self) = Return version
    /\ outcome (render w self request comp props options)
       = Return (JsonPayload comp (py_or props (VDict [])) (path_info request) version)
    /\ outcome (render w self request comp (VDict d) options)
       = Return (JsonPayload comp (VDict d) (path_info request) version)
    /\ ssr_calls (trace (render w self request comp props options)) = 0
    /\ filter (is_call "_get_scripts")
         (trace (render w self request comp props options)) = []
    /\ filter (is_call "_get_styles")
         (trace (render w self request comp props options)) = [].
Proof.
  intros Hx. exists (version_spec w).
  rewrite !(render_xhr _ _ _ _ _ _ Hx), options_mapping.
  pose proof (LoaderFacts.get_version_trace w self) as Hopen.
  repeat split; try apply LoaderFacts.get_version_outcome; simpl;
    try unfold ssr_calls; simpl; now rewrite (no_post_in_opens _ Hopen).
Qed.

(** C4 (as amended): when the SSR service answers with a JSON object, each
    of [html] and [head] in the context is the object's value for that key
    if it has the key and the empty string if not; a missing key does not
    discard the other. *)
Theorem render_ssr_object (w : World) (self : t) (request : HttpRequest)
    (comp : string) (props : value) (o : list (string * value)) (sc st : string)
    (r : Response) (d : list (string * value)) :
  is_xhr request = false ->
  truthy (ssr_enabled self) = true ->
  truthy (match lookup "ssr" o with Some v => v | None => VBool true end) = true ->
  _get_scripts self = Return sc ->
  _get_styles self = Return st ->
  requests_installed w = true ->
  requests_post w (ssr_url self ++ "/render")
    (VDict [("component", VStr comp); ("props", py_or props (VDict []))]) 2
  = Return r ->
  json r = Return (VDict d) ->
  exists template,
    outcome (render w self request comp props (VDict o))
    = Return (HtmlContext template
                {| component := comp;
                   props := json_dumps (py_or props (VDict []));
                   scripts := sc; styles := st;
                   html := match lookup "html" d with Some v => v | None => VStr "" end;
                   head := match lookup "head" d with Some v => v | None => VStr "" end |}).
Proof.
  intros Hx Hen Hopt Hsc Hst Hi Hp Hj.
  unfold render. rewrite Hx, Hsc, Hst, Hen, options_mapping. simpl. rewrite Hopt.
  run_block (ssr_block_object w self comp (py_or props (VDict []))
               {| component := comp; props := json_dumps (py_or props (VDict []));
                  scripts := sc; styles := st; html := VStr ""; head := VStr "" |}
               r d Hi Hp Hj).
  eauto.
Qed.


(** C6: on a full-page request whose options have [ssr] set to [False],
    the SSR service is not called, whatever [ssr_enabled] is, and [html]
    and [head] stay empty. *)
Theorem render_ssr_opt_out (w : World) (self : t) (request : HttpRequest)
    (comp : string) (props : value) (o : list (string * value)) (sc st : string) :
  is_xhr request = false ->
  lookup "ssr" o = Some (VBool false) ->
  _get_scripts self = Return sc ->
  _get_styles self = Return st ->
  ssr_calls (trace (render w self request comp props (VDict o))) = 0
  /\ exists template,
       outcome (render w self request comp props (VDict o))
       = Return (HtmlContext template
                   {| component := comp;
                      props := json_dumps (py_or props (VDict []));
                      scripts := sc; styles := st;
                      html := VStr ""; head := VStr "" |}).
Proof.
  intros Hx Hopt Hsc Hst.
  unfold render. rewrite Hx, Hsc, Hst, options_mapping. simpl. rewrite Hopt.
  destruct (truthy (ssr_enabled self)); simpl; eauto.
Qed.

End WithRuntime.
End RenderFacts.

(** ** The dispatcher and the builders in the concrete environments *)

Module Scenarios.
Import NadiRenderer.



(** An XHR request while SSR is enabled and the manifest file is there. *)
Lemma render_xhr_payload_witness :
  is_xhr Sample.xhr_request = true
  /\ exists version,
       outcome (_get_version (Sample.world (Some "{}") Sample.html_and_head)
                  Sample.scenario_renderer) = Return version
       /\ outcome (render (Sample.world (Some "{}") Sample.html_and_head)
                     Sample.scenario_renderer Sample.xhr_request "Home" VNone VNone)
          = Return (JsonPayload "Home" (VDict []) "/dashboard" version)
       /\ outcome (render (Sample.world (Some "{}") Sample.html_and_head)
                     Sample.scenario_renderer Sample.xhr_request "Home"
                     (VDict [("page", VInt 2)]) VNone)
          = Return (JsonPayload "Home" (VDict [("page", VInt 2)]) "/dashboard" version)
       /\ ssr_calls (trace (render (Sample.world (Some "{}") Sample.html_and_head)
                              Sample.scenario_renderer Sample.xhr_request "Home" VNone VNone)) = 0
       /\ filter (is_call "_get_scripts")
            (trace (render (Sample.world (Some "{}") Sample.html_and_head)
                      Sample.scenario_renderer Sample.xhr_request "Home" VNone VNone)) = []
       /\ filter (is_call "_get_styles")
            (trace (render (Sample.world (Some "{}") Sample.html_and_head)
                      Sample.scenario_renderer Sample.xhr_request "Home" VNone VNone)) = [].
Proof.
  split; [reflexivity|].
  apply (RenderFacts.render_xhr_payload
           (Sample.world (Some "{}") Sample.html_and_head) Sample.scenario_renderer
           Sample.xhr_request "Home" VNone VNone [("page", VInt 2)]).
  reflexivity.
Defined.

(** The SSR service answers with an object that has no [head]: the [html]
    it sent is in the context all the same. *)
Lemma render_html_only_counterexample :
  lookup "head" [("html", VStr "<div>x</div>")] = None
  /\ outcome (render (Sample.world None Sample.html_only) Sample.scenario_renderer
                Sample.page_request "Home" VNone VNone)
     = Return (HtmlContext (VStr "nadi/app.html")
                 (Sample.scenario_context (VStr "<div>x</div>") (VStr "")))
  /\ html (Sample.scenario_context (VStr "<div>x</div>") (VStr "")) <> VStr "".
Proof. repeat split. discriminate. Qed.

Lemma render_ssr_object_witness :
  exists template,
    outcome (render (Sample.world None Sample.html_only) Sample.scenario_renderer
               Sample.page_request "Home" VNone (VDict []))
    = Return (HtmlContext template (Sample.scenario_context (VStr "<div>x</div>") (VStr ""))).
Proof.
  exact (RenderFacts.render_ssr_object
           (Sample.world None Sample.html_only) Sample.scenario_renderer
           Sample.page_request "Home" VNone [] Sample.scenario_scripts Sample.scenario_styles
           {| json := Return (VDict [("html", VStr "<div>x</div>")]) |}
           [("html", VStr "<div>x</div>")]
           eq_refl eq_refl eq_refl eq_refl eq_refl eq_refl eq_refl eq_refl).
Defined.



(** SSR enabled, a service that would answer, and [ssr] set to [False]. *)
Lemma render_ssr_opt_out_witness :
  truthy (ssr_enabled Sample.scenario_renderer) = true
  /\ ssr_calls (trace (render (Sample.world None Sample.html_and_head) Sample.scenario_renderer
                         Sample.page_request "Home" VNone
                         (VDict [("ssr", VBool false)]))) = 0
  /\ exists template,
       outcome (render (Sample.world None Sample.html_and_head) Sample.scenario_renderer
                  Sample.page_request "Home" VNone (VDict [("ssr", VBool false)]))
       = Return (HtmlContext template (Sample.scenario_context (VStr "") (VStr ""))).
Proof.
  split; [reflexivity|].
  exact (RenderFacts.render_ssr_opt_out
           (Sample.world None Sample.html_and_head) Sample.scenario_renderer
           Sample.page_request "Home" VNone [("ssr", VBool false)]
           Sample.scenario_scripts Sample.scenario_styles eq_refl eq_refl eq_refl eq_refl).
Defined.

(** The scenario of the specification: the answer of the SSR service
    populates the context. *)
Example render_ssr_success :
  outcome (render (Sample.world None Sample.html_and_head) Sample.scenario_renderer
             Sample.page_request "Home" VNone VNone)
  = Return (HtmlContext (VStr "nadi/app.html")
              (Sample.scenario_context (VStr "<div>x</div>") (VStr "<title>t</title>"))).
Proof. reflexivity. Qed.

End Scenarios.

(** ** The tag builders: results and totality *)

Module TagFacts.
Import NadiRenderer.

Section WithRuntime.
Context {rt : Runtime}.

(** C7: on a documented manifest, [_get_scripts] returns the fallback
    reference, to [/static/src/main.ts], when the manifest is empty, and
    otherwise the newline-joined references, under [/static/build/], to
    the [file] of each entry whose [isEntry] is true, one per entry, in the
    order of the mapping.  The references are spelled out, character by
    character, as the strings the source builds. *)
Theorem get_scripts_references (self : t) (entries : list (string * value)) :
  manifest self = VDict entries ->
  conforms (manifest self) = true ->
  let quote := String "034"%char EmptyString in
  let line_feed := String "010"%char EmptyString in
  _get_scripts self
  = Return (match entries with
            | [] =>
                "<script type=" ++ quote ++ "module" ++ quote ++ " src=" ++ quote
                ++ "/static/src/main.ts" ++ quote ++ "></script>"
            | _ :: _ =>
                String.concat line_feed
                  (map (fun kv =>
                          "<script type=" ++ quote ++ "module" ++ quote ++ " src="
                          ++ quote ++ "/static/build/" ++ file_of (snd kv) ++ quote
                          ++ "></script>")
                       (filter (fun kv => is_entry (snd kv)) entries))
            end).
Proof.
  intros Hm Hc quote line_feed.
  rewrite (BuilderFacts.get_scripts_documented self entries Hm Hc).
  destruct entries; reflexivity.
Qed.

(** C9: on a documented manifest both builders return a string; neither
    raises. *)
Theorem builders_total (self : t) :
  conforms (manifest self) = true ->
  exists scripts styles,
    _get_scripts self = Return scripts /\ _get_styles self = Return styles.
Proof.
  intros Hc. destruct (manifest self) as [| | | | |entries] eqn:Hm; try discriminate.
  exists (scripts_spec entries), (styles_spec entries). split.
  - apply BuilderFacts.get_scripts_documented; [exact Hm | now rewrite Hm].
  - apply BuilderFacts.get_styles_documented; [exact Hm | now rewrite Hm].
Qed.

End WithRuntime.

(** The manifest of the specification's scenario. *)
Lemma get_scripts_references_witness :
  conforms Sample.scenario_manifest = true
  /\ _get_scripts Sample.scenario_renderer
     = Return ("<script type=" ++ String "034"%char "module"
               ++ String "034"%char " src="
               ++ String "034"%char "/static/build/main.abc123.js"
               ++ String "034"%char "></script>").
Proof.
  split; [reflexivity|].
  exact (get_scripts_references Sample.scenario_renderer _ eq_refl eq_refl).
Defined.

(** The strings the builders emit, character by character. *)
Example tag_literals (file : string) :
  script_tag file
  = "<script type=" ++ String "034"%char "module" ++ String "034"%char " src="
    ++ String "034"%char "/static/build/" ++ file ++ String "034"%char "></script>"
  /\ link_tag file
     = "<link rel=" ++ String "034"%char "stylesheet" ++ String "034"%char " href="
       ++ String "034"%char "/static/build/" ++ file ++ String "034"%char ">"
  /\ fallback_script
     = "<script type=" ++ String "034"%char "module" ++ String "034"%char " src="
       ++ String "034"%char "/static/src/main.ts" ++ String "034"%char "></script>"
  /\ join newline ["a"; "b"] = "a" ++ String "010"%char "b".
Proof. repeat split. Qed.

Lemma builders_total_witness :
  exists scripts styles,
    _get_scripts Sample.scenario_renderer = Return scripts
    /\ _get_styles Sample.scenario_renderer = Return styles.
Proof. exact (builders_total Sample.scenario_renderer eq_refl). Defined.

(** Two entries, in the order of the mapping, and an empty manifest. *)
Example get_scripts_two_entries :
  _get_scripts
    (Sample.renderer
       (VDict [("b.ts", VDict [("file", VStr "b.js"); ("isEntry", VBool true)]);
               ("lib.ts", VDict [("file", VStr "lib.js"); ("isEntry", VBool false)]);
               ("a.ts", VDict [("file", VStr "a.js"); ("isEntry", VBool true)])]))
  = Return (script_tag "b.js" ++ newline ++ script_tag "a.js").
Proof. reflexivity. Qed.

Example get_scripts_empty :
  _get_scripts (Sample.renderer (VDict [])) = Return fallback_script
  /\ _get_styles (Sample.renderer (VDict [])) = Return "".
Proof. split; reflexivity. Qed.

(** Off the documented manifest the builders can raise: an entry flagged
    [isEntry] without a [file], and a loaded manifest that is a list. *)
Example get_scripts_missing_file :
  _get_scripts (Sample.renderer (VDict [("a.ts", VDict [("isEntry", VBool true)])]))
  = Raise (KeyError "file").
Proof. reflexivity. Qed.

Example builders_on_list :
  _get_scripts (Sample.renderer (VList [VInt 1])) = Raise AttributeError
  /\ _get_styles (Sample.renderer (VList [VInt 1])) = Raise AttributeError.
Proof. split; reflexivity. Qed.

End TagFacts.

(** ** The middleware *)

Module MiddlewareFacts.
Import NadiMiddleware.

Section WithFramework.
Context {fw : Framework}.

(** C8 (as amended): every response the middleware returns has
    [X-Nadi-Version: 0.2.0]; its [X-CSRF-Token] is the framework's token
    when the request has an [X-Nadi] header with a non-empty value, and is
    what the inner handler's response has otherwise. *)
Theorem call_headers (self : t) (request : HttpRequest) :
  headers (__call__ self request) "X-Nadi-Version" = Some "0.2.0"
  /\ headers (__call__ self request) "X-CSRF-Token"
     = match headers_get request "X-Nadi" with
       | Some v =>
           if String.eqb v "" then headers (get_response self request) "X-CSRF-Token"
           else Some (get_token request)
       | None => headers (get_response self request) "X-CSRF-Token"
       end.
Proof.
  unfold __call__, header_truthy.
  destruct (headers_get request "X-Nadi") as [v|]; simpl.
  - destruct (String.eqb v ""); simpl; split; reflexivity.
  - split; reflexivity.
Qed.

End WithFramework.

(** A request whose [X-Nadi] header is there with an empty value gets no
    CSRF header. *)
Lemma call_empty_marker_counterexample :
  ~ csrf_iff_marker Sample.middleware Sample.empty_marker_request.
Proof.
  unfold csrf_iff_marker. intros [_ H]. apply H; [discriminate | reflexivity].
Qed.

Example call_marker :
  headers (__call__ Sample.middleware Sample.marker_request) "X-CSRF-Token"
  = Some "k3yT0k3n"
  /\ headers (__call__ Sample.middleware Sample.page_request) "X-CSRF-Token" = None.
Proof. split; reflexivity. Qed.

End MiddlewareFacts.

(** ** The tag builders on any loaded manifest *)

Module ShapeFacts.
Import NadiRenderer Shapes.

Section WithRuntime.
Context {rt : Runtime}.

Lemma for_each_returns {A B : Type} (ok : A -> bool) (g : A -> list B)
    (body : list B -> A -> result (list B)) :
  (forall acc x, ok x = true -> body acc x = Return (acc ++ g x)%list) ->
  (forall acc x, ok x = false -> returns (body acc x) = false) ->
  forall xs acc, returns (for_each xs acc body) = forallb ok xs.
Proof.
  intros Hok Hbad xs. induction xs as [|x rest IH]; intros acc; simpl; [reflexivity|].
  destruct (ok x) eqn:Hx; simpl.
  - rewrite (Hok acc x Hx). apply IH.
  - specialize (Hbad acc x Hx). now destruct (body acc x).
Qed.

(** The final [join] of a builder returns whenever its loop does. *)
Ltac skip_join :=
  match goal with
  | |- returns (match ?m with Return _ => _ | Raise _ => _ end) = _ =>
      transitivity (returns m); [now destruct m|]
  end.

Lemma scripts_step_ok (acc : list string) (kv : string * value) :
  scripts_record_ok (snd kv) = true ->
  (let '(file, data) := kv in
   is_entry <- get data "isEntry" VNone ;;
   if truthy is_entry then
     f <- getitem data "file" ;;
     ret (acc ++ [script_tag (format f)])%list
   else ret acc)
  = Return (acc ++ (if entry_flag (snd kv)
                    then [script_tag (format (file_value (snd kv)))] else []))%list.
Proof.
  destruct kv as [file data]; simpl.
  destruct data as [| | | | |fields]; simpl; try discriminate.
  destruct (truthy _); simpl.
  - destruct (lookup "file" fields); [reflexivity | discriminate].
  - now rewrite app_nil_r.
Qed.

Lemma scripts_step_bad (acc : list string) (kv : string * value) :
  scripts_record_ok (snd kv) = false ->
  returns (let '(file, data) := kv in
           is_entry <- get data "isEntry" VNone ;;
           if truthy is_entry then
             f <- getitem data "file" ;;
             ret (acc ++ [script_tag (format f)])%list
           else ret acc) = false.
Proof.
  destruct kv as [file data]; simpl.
  destruct data as [| | | | |fields]; simpl; try reflexivity.
  destruct (truthy _); simpl; [|discriminate].
  destruct (lookup "file" fields); [discriminate | reflexivity].
Qed.

Lemma links_loop (l : list value) (acc : list string) :
  for_each l acc (fun styles css_file => ret (styles ++ [link_tag (format css_file)])%list)
  = Return (acc ++ map (fun v => link_tag (format v)) l)%list.
Proof.
  rewrite (for_each_append (fun _ => True) (fun v => [link_tag (format v)])).
  - now rewrite flat_map_singleton.
  - reflexivity.
  - now apply Forall_forall.
Qed.


Lemma styles_step_ok (acc : list string) (kv : string * value) :
  styles_record_ok (snd kv) = true ->
  (let '(file, data) := kv in
   has_css <- contains "css" data ;;
   if (has_css : bool) then
     css <- getitem data "css" ;;
     css_files <- iter css ;;
     for_each css_files acc
       (fun styles css_file => ret (styles ++ [link_tag (format css_file)])%list)
   else ret acc)
  = Return (acc ++ map (fun v => link_tag (format v)) (css_elements (snd kv)))%list.
Proof.
  destruct kv as [file data]; simpl.
  destruct data as [| | |s|l|fields]; simpl; try discriminate.
  - destruct (String.index 0 "css" s); [discriminate|]. intros _. now rewrite app_nil_r.
  - destruct (existsb (is_str "css") l); [discriminate|]. intros _. now rewrite app_nil_r.
  - destruct (lookup "css" fields) as [v|]; simpl; [|intros _; now rewrite app_nil_r].
    destruct (iter v) as [elems|e]; simpl; [|discriminate].
    intros _. apply links_loop.
Qed.

Lemma styles_step_bad (acc : list string) (kv : string * value) :
  styles_record_ok (snd kv) = false ->
  returns (let '(file, data) := kv in
           has_css <- contains "css" data ;;
           if (has_css : bool) then
             css <- getitem data "css" ;;
             css_files <- iter css ;;
             for_each css_files acc
               (fun styles css_file => ret (styles ++ [link_tag (format css_file)])%list)
           else ret acc) = false.
Proof.
  destruct kv as [file data]; simpl.
  destruct data as [| | |s|l|fields]; simpl; try reflexivity.
  - destruct (String.index 0 "css" s); [reflexivity | discriminate].
  - destruct (existsb (is_str "css") l); [reflexivity | discriminate].
  - destruct (lookup "css" fields) as [v|]; simpl; [|discriminate].
    destruct (iter v) as [elems|e]; simpl; [discriminate | reflexivity].
Qed.

(** X5: [isEntry] is tested for truthiness and [file] is formatted as any
    value is: on a manifest whose records are dicts that have a [file]
    whenever their [isEntry] is truthy, [_get_scripts] returns the
    references to the formatted [file] of each record with a truthy
    [isEntry], in order. *)
Theorem get_scripts_truthy_entries (self : t) (entries : list (string * value)) :
  manifest self = VDict entries ->
  forallb (fun kv => scripts_record_ok (snd kv)) entries = true ->
  _get_scripts self
  = Return (match entries with
            | [] => fallback_script
            | _ :: _ =>
                join newline
                  (map (fun kv => script_tag (format (file_value (snd kv))))
                       (filter (fun kv => entry_flag (snd kv)) entries))
            end).
Proof.
  intros Hm Hok. unfold _get_scripts. rewrite Hm.
  destruct entries as [|e rest]; [reflexivity|].
  cbn [truthy negb items bind Monad_result ret].
  rewrite (for_each_append (fun kv => scripts_record_ok (snd kv) = true)
             (fun kv => if entry_flag (snd kv)
                        then [script_tag (format (file_value (snd kv)))] else [])).
  - now rewrite flat_map_filter.
  - intros acc kv Hkv. rewrite <- (scripts_step_ok acc kv Hkv). now destruct kv.
  - now apply forallb_Forall.
Qed.

(** X6: [_get_scripts] raises exactly when the loaded manifest is truthy
    and is not a dict, or has a record that is not a dict or that has a
    truthy [isEntry] and no [file]. *)
Theorem get_scripts_returns_iff (self : t) :
  returns (_get_scripts self)
  = negb (truthy (manifest self))
    || match manifest self with
       | VDict entries => forallb (fun kv => scripts_record_ok (snd kv)) entries
       | _ => false
       end.
Proof.
  unfold _get_scripts.
  destruct (manifest self) as [|b|z|s|l|entries]; try reflexivity.
  - now destruct b.
  - simpl. now destruct (Z.eqb z 0).
  - simpl. now destruct (String.eqb s "").
  - now destruct l.
  - destruct entries as [|e rest]; [reflexivity|].
    cbn [truthy negb orb items bind Monad_result]. skip_join.
    apply for_each_returns
      with (g := fun kv => if entry_flag (snd kv)
                           then [script_tag (format (file_value (snd kv)))] else []).
    + intros acc kv Hkv. rewrite <- (scripts_step_ok acc kv Hkv). now destruct kv.
    + intros acc [file data] Hkv. exact (scripts_step_bad acc (file, data) Hkv).
Qed.


(** X8: on a documented manifest [_get_styles] returns one stylesheet
    reference under [/static/build/] per element of each record's [css]
    list, in order across the records, joined with newlines; there is no
    fallback, an empty manifest gives the empty string. *)
Theorem get_styles_references (self : t) (entries : list (string * value)) :
  manifest self = VDict entries ->
  conforms (manifest self) = true ->
  _get_styles self
  = Return (join newline (flat_map (fun kv => map link_tag (css_of (snd kv))) entries)).
Proof.
  intros Hm Hc. apply (BuilderFacts.get_styles_documented self entries Hm Hc).
Qed.

(** X9: [_get_styles] iterates whatever [css] is: on a manifest whose
    records it gets past, it returns one reference per element that
    iterating [css] yields (the elements of a list, the characters of a
    string, the keys of a dict), each formatted as any value is. *)
Theorem get_styles_iterates (self : t) (entries : list (string * value)) :
  manifest self = VDict entries ->
  forallb (fun kv => styles_record_ok (snd kv)) entries = true ->
  _get_styles self
  = Return (join newline
              (flat_map (fun kv => map (fun v => link_tag (format v))
                                     (css_elements (snd kv))) entries)).
Proof.
  intros Hm Hok. unfold _get_styles. rewrite Hm.
  cbn [items bind Monad_result ret].
  rewrite (for_each_append (fun kv => styles_record_ok (snd kv) = true)
             (fun kv => map (fun v => link_tag (format v)) (css_elements (snd kv)))).
  - reflexivity.
  - intros acc kv Hkv. rewrite <- (styles_step_ok acc kv Hkv). now destruct kv.
  - now apply forallb_Forall.
Qed.

(** X10: [_get_styles] raises exactly when the loaded manifest is not a
    dict (the empty list and [None] included) or has a record it cannot
    get past: a dict whose [css] is not iterable, a list or string in
    which [css] occurs, or a number, boolean or [None]. *)
Theorem get_styles_returns_iff (self : t) :
  returns (_get_styles self)
  = match manifest self with
    | VDict entries => forallb (fun kv => styles_record_ok (snd kv)) entries
    | _ => false
    end.
Proof.
  unfold _get_styles.
  destruct (manifest self) as [| | | | |entries]; try reflexivity.
  cbn [items bind Monad_result]. skip_join.
  apply for_each_returns
    with (g := fun kv => map (fun v => link_tag (format v)) (css_elements (snd kv))).
  - intros acc kv Hkv. rewrite <- (styles_step_ok acc kv Hkv). now destruct kv.
  - intros acc [file data] Hkv. exact (styles_step_bad acc (file, data) Hkv).
Qed.

End WithRuntime.
End ShapeFacts.

(** ** The dispatcher: errors, the SSR call and the files it opens *)

Module DispatchFacts.
Import NadiRenderer Shapes.

Section WithRuntime.
Context {rt : Runtime}.

Lemma ssr_block_opens_nothing (w : World) (self : t) (comp : string) (body : value)
    (context : TemplateContext) :
  filter is_open (trace (ssr_block w self comp body context)) = [].
Proof.
  unfold ssr_block, import_requests, post.
  destruct (requests_installed w); simpl; [|reflexivity].
  destruct (requests_post w _ _ 2) as [r|e]; simpl; [|reflexivity].
  destruct (json r) as [data|e]; simpl; [|reflexivity].
  destruct data; reflexivity.
Qed.

Lemma ssr_block_post (w : World) (self : t) (comp : string) (body : value)
    (context : TemplateContext) :
  requests_installed w = true ->
  trace (ssr_block w self comp body context)
  = [Post (ssr_url self ++ "/render")
       (VDict [("component", VStr comp); ("props", body)]) 2].
Proof.
  intros Hi. unfold ssr_block, import_requests, post. rewrite Hi. simpl.
  destruct (requests_post w _ _ 2) as [r|e]; simpl; [|reflexivity].
  destruct (json r) as [data|e]; simpl; [|reflexivity].
  destruct data; reflexivity.
Qed.

(** Whatever the service answers, the block only sets [html] and [head]. *)
Lemma ssr_block_sets_html_head (w : World) (self : t) (comp : string) (body : value)
    (c p sc st : string) (h0 hd0 : value) :
  exists h hd,
    outcome (ssr_block w self comp body
               {| component := c; props := p; scripts := sc; styles := st;
                  html := h0; head := hd0 |})
    = Return {| component := c; props := p; scripts := sc; styles := st;
                html := h; head := hd |}.
Proof.
  unfold ssr_block, import_requests, post.
  destruct (requests_installed w); simpl; [|do 2 eexists; reflexivity].
  destruct (requests_post w _ _ 2) as [r|e]; simpl; [|do 2 eexists; reflexivity].
  destruct (json r) as [data|e]; simpl; [|do 2 eexists; reflexivity].
  destruct data; simpl; do 2 eexists; reflexivity.
Qed.

Lemma ssr_block_calls_no_method (w : World) (self : t) (comp : string) (body : value)
    (context : TemplateContext) (method : string) :
  filter (is_call method) (trace (ssr_block w self comp body context)) = [].
Proof.
  unfold ssr_block, import_requests, post.
  destruct (requests_installed w); simpl; [|reflexivity].
  destruct (requests_post w _ _ 2) as [r|e]; simpl; [|reflexivity].
  destruct (json r) as [data|e]; simpl; [|reflexivity].
  destruct data; reflexivity.
Qed.

Ltac split_block :=
  match goal with
  | |- context [ssr_block ?w ?s ?c ?b ?x] =>
      let Hret := fresh "Hret" in
      let Hcalls := fresh "Hcalls" in
      let Hopen := fresh "Hopen" in
      destruct (RenderFacts.ssr_block_returns w s c b x) as [? Hret];
      pose proof (RenderFacts.ssr_block_calls w s c b x) as Hcalls;
      pose proof (ssr_block_opens_nothing w s c b x) as Hopen;
      unfold outcome, trace in Hret, Hcalls, Hopen;
      destruct (ssr_block w s c b x) as [tb rb]; simpl in Hret, Hcalls, Hopen;
      subst rb; simpl
  end.

(** X11: on a full-page request an exception of [_get_scripts] or of
    [_get_styles] leaves [render] as it is, and no call of the SSR service
    has been made by then. *)
Theorem render_builder_error (w : World) (self : t) (request : HttpRequest)
    (comp : string) (props options : value) (e : exn) :
  is_xhr request = false ->
  _get_scripts self = Raise e
  \/ (returns (_get_scripts self) = true /\ _get_styles self = Raise e) ->
  outcome (render w self request comp props options) = Raise e
  /\ ssr_calls (trace (render w self request comp props options)) = 0.
Proof.
  intros Hx [Hsc | [Hsc Hst]]; unfold render; rewrite Hx.
  - rewrite Hsc. split; reflexivity.
  - destruct (_get_scripts self) as [sc|]; [|discriminate]. rewrite Hst.
    split; reflexivity.
Qed.


(** X13: with a falsy [ssr_enabled] the SSR service is never called,
    whatever the options say: the only calls are the two tag builders, the
    template is the one of the options or [nadi/app.html], and [html] and
    [head] are empty. *)
Theorem render_ssr_disabled (w : World) (self : t) (request : HttpRequest)
    (comp : string) (props : value) (o : list (string * value)) (sc st : string) :
  is_xhr request = false ->
  truthy (ssr_enabled self) = false ->
  _get_scripts self = Return sc ->
  _get_styles self = Return st ->
  trace (render w self request comp props (VDict o))
  = [Call "_get_scripts"; Call "_get_styles"]
  /\ outcome (render w self request comp props (VDict o))
     = Return (HtmlContext
                 (match lookup "template" o with
                  | Some v => v
                  | None => VStr "nadi/app.html"
                  end)
                 {| component := comp;
                    props := json_dumps (py_or props (VDict []));
                    scripts := sc; styles := st;
                    html := VStr ""; head := VStr "" |}).
Proof.
  intros Hx Hen Hsc Hst. unfold render.
  rewrite Hx, Hsc, Hst, Hen, RenderFacts.options_mapping. split; reflexivity.
Qed.

(** X14: when SSR is enabled, not switched off by the options, and
    [requests] can be imported, [render] makes exactly one POST, after the
    two tag builders, to [ssr_url] followed by [/render], with the
    component and the props as body and a timeout of 2, whatever the
    service answers. *)
Theorem render_ssr_request (w : World) (self : t) (request : HttpRequest)
    (comp : string) (props : value) (o : list (string * value)) (sc st : string) :
  is_xhr request = false ->
  truthy (ssr_enabled self) = true ->
  truthy (match lookup "ssr" o with Some v => v | None => VBool true end) = true ->
  _get_scripts self = Return sc ->
  _get_styles self = Return st ->
  requests_installed w = true ->
  trace (render w self request comp props (VDict o))
  = [Call "_get_scripts"; Call "_get_styles";
     Post (ssr_url self ++ "/render")
       (VDict [("component", VStr comp); ("props", py_or props (VDict []))]) 2].
Proof.
  intros Hx Hen Hopt Hsc Hst Hi. unfold render.
  rewrite Hx, Hsc, Hst, Hen, RenderFacts.options_mapping. simpl. rewrite Hopt.
  match goal with
  | |- context [ssr_block ?w ?s ?c ?b ?x] =>
      pose proof (ssr_block_post w s c b x Hi) as Hp;
      destruct (RenderFacts.ssr_block_returns w s c b x) as [c' Hc'];
      unfold outcome, trace in Hp, Hc';
      destruct (ssr_block w s c b x) as [tb rb]; simpl in Hp, Hc'; subst tb rb
  end.
  reflexivity.
Qed.

(** X15: no [render] calls the SSR service more than once: there is no
    retry, on any input. *)
Theorem render_at_most_one_post (w : World) (self : t) (request : HttpRequest)
    (comp : string) (props options : value) :
  ssr_calls (trace (render w self request comp props options)) <= 1.
Proof.
  destruct (is_xhr request) eqn:Hx.
  - rewrite (RenderFacts.render_xhr _ _ _ _ _ _ Hx).
    pose proof (RenderFacts.no_post_in_opens _ (LoaderFacts.get_version_trace w self)
                  is_post (fun _ _ => eq_refl)) as Hnone.
    unfold ssr_calls, trace in *. cbn [fst filter is_post]. rewrite Hnone. auto.
  - unfold render. rewrite Hx.
    destruct (_get_scripts self) as [sc|]; [|simpl; auto].
    destruct (_get_styles self) as [st|]; [|simpl; auto].
    simpl. destruct (truthy (ssr_enabled self)); simpl.
    + destruct (get (py_or options (VDict [])) "ssr" (VBool true)) as [ssr|]; simpl;
        [|auto].
      destruct (truthy ssr); simpl.
      * split_block.
        destruct (get (py_or options (VDict [])) "template" _); simpl;
          unfold ssr_calls in *; simpl; rewrite ?app_nil_r; exact Hcalls.
      * destruct (get (py_or options (VDict [])) "template" _); simpl; auto.
    + destruct (get (py_or options (VDict [])) "template" _); simpl; auto.
Qed.

(** X16: options that are truthy and not a dict make a full-page [render]
    raise [AttributeError] before any call of the SSR service. *)
Theorem render_bad_options (w : World) (self : t) (request : HttpRequest)
    (comp : string) (props options : value) (sc st : string) :
  is_xhr request = false ->
  truthy options = true ->
  is_mapping options = false ->
  _get_scripts self = Return sc ->
  _get_styles self = Return st ->
  outcome (render w self request comp props options) = Raise AttributeError
  /\ ssr_calls (trace (render w self request comp props options)) = 0.
Proof.
  intros Hx Ht Hm Hsc Hst.
  assert (Ho : py_or options (VDict []) = options) by (unfold py_or; now rewrite Ht).
  unfold render. rewrite Hx, Hsc, Hst, Ho.
  destruct options; try discriminate; simpl;
    destruct (truthy (ssr_enabled self)); split; reflexivity.
Qed.

(** X17: a full-page [render] opens no file: the tags come from the
    manifest loaded at construction. *)
Theorem render_page_opens_no_file (w : World) (self : t) (request : HttpRequest)
    (comp : string) (props options : value) :
  is_xhr request = false ->
  filter is_open (trace (render w self request comp props options)) = [].
Proof.
  intros Hx. unfold render. rewrite Hx.
  destruct (_get_scripts self) as [sc|]; [|reflexivity].
  destruct (_get_styles self) as [st|]; [|reflexivity].
  simpl. destruct (truthy (ssr_enabled self)); simpl.
  - destruct (get (py_or options (VDict [])) "ssr" (VBool true)) as [ssr|]; simpl;
      [|reflexivity].
    destruct (truthy ssr); simpl.
    + split_block.
      destruct (get (py_or options (VDict [])) "template" _); simpl;
        rewrite ?app_nil_r; exact Hopen.
    + destruct (get (py_or options (VDict [])) "template" _); reflexivity.
  - destruct (get (py_or options (VDict [])) "template" _); reflexivity.
Qed.

(** X18: an XHR [render] calls [_get_version], which opens the manifest
    file under [BASE_DIR] in binary mode, and does nothing else: the file
    is read again for every such request. *)
Theorem render_xhr_reads_manifest (w : World) (self : t) (request : HttpRequest)
    (comp : string) (props options : value) (base : path) :
  is_xhr request = true ->
  BASE_DIR (settings w) = Some base ->
  trace (render w self request comp props options)
  = [Call "_get_version";
     Open (div (div (div base "static") "build") "manifest.json") "rb"].
Proof.
  intros Hx Hb. rewrite (RenderFacts.render_xhr _ _ _ _ _ _ Hx). unfold trace. simpl.
  unfold _get_version, manifest_path, open_read, attr.
  destruct (settings w) as [|attrs]; [discriminate|]. rewrite Hb. simpl.
  destruct (files w _); reflexivity.
Qed.

(** X19: on a full-page request the answer of the SSR service can only
    set [html] and [head]: the component, the dumped props and the two
    tag strings of the context are fixed before the call, and the template
    is the one of the options or [nadi/app.html]. *)
Theorem render_page_context (w : World) (self : t) (request : HttpRequest)
    (comp : string) (props : value) (o : list (string * value)) (sc st : string) :
  is_xhr request = false ->
  _get_scripts self = Return sc ->
  _get_styles self = Return st ->
  exists html head,
    outcome (render w self request comp props (VDict o))
    = Return (HtmlContext
                (match lookup "template" o with
                 | Some v => v
                 | None => VStr "nadi/app.html"
                 end)
                {| component := comp;
                   props := json_dumps (py_or props (VDict []));
                   scripts := sc; styles := st;
                   html := html; head := head |}).
Proof.
  intros Hx Hsc Hst. unfold render.
  rewrite Hx, Hsc, Hst, RenderFacts.options_mapping. simpl.
  destruct (truthy (ssr_enabled self)); simpl; [|do 2 eexists; reflexivity].
  destruct (truthy match lookup "ssr" o with Some v => v | None => VBool true end);
    simpl; [|do 2 eexists; reflexivity].
  destruct (ssr_block_sets_html_head w self comp (py_or props (VDict []))
              comp (json_dumps (py_or props (VDict []))) sc st (VStr "") (VStr ""))
    as (h & hd & Hb).
  unfold outcome in Hb. destruct (ssr_block _ _ _ _ _) as [tb rb].
  simpl in Hb. subst rb. simpl. do 2 eexists; reflexivity.
Qed.

(** X20: the template tag [nadi_render] always takes the full-page path:
    it returns the context for the default template, opens no file and
    never calls [_get_version]. *)
Theorem nadi_render_full_page (w : World) (nadi : t) (comp : string) (props : value)
    (sc st : string) :
  _get_scripts nadi = Return sc ->
  _get_styles nadi = Return st ->
  (exists html head,
     outcome (nadi_render w nadi comp props)
     = Return (HtmlContext (VStr "nadi/app.html")
                 {| component := comp;
                    props := json_dumps (py_or props (VDict []));
                    scripts := sc; styles := st;
                    html := html; head := head |}))
  /\ filter is_open (trace (nadi_render w nadi comp props)) = []
  /\ filter (is_call "_get_version") (trace (nadi_render w nadi comp props)) = [].
Proof.
  intros Hsc Hst.
  assert (Hp : py_or (py_or props (VDict [])) (VDict []) = py_or props (VDict [])).
  { unfold py_or. destruct (truthy props) eqn:Ht; [now rewrite Ht | reflexivity]. }
  unfold nadi_render, render. simpl. rewrite Hsc, Hst, Hp. simpl.
  destruct (truthy (ssr_enabled nadi)); simpl;
    [|split; [do 2 eexists; reflexivity | split; reflexivity]].
  destruct (ssr_block_sets_html_head w nadi comp (py_or props (VDict []))
              comp (json_dumps (py_or props (VDict []))) sc st (VStr "") (VStr ""))
    as (h & hd & Hb).
  match goal with
  | |- context [ssr_block ?w ?s ?c ?b ?x] =>
      pose proof (ssr_block_calls_no_method w s c b x "_get_version") as Hno;
      pose proof (ssr_block_opens_nothing w s c b x) as Hopen;
      unfold outcome, trace in Hb, Hno, Hopen;
      destruct (ssr_block w s c b x) as [tb rb]; simpl in Hb, Hno, Hopen; subst rb
  end.
  simpl. rewrite ?app_nil_r. split; [|split; assumption].
  exists h, hd. reflexivity.
Qed.

End WithRuntime.
End DispatchFacts.

(** ** Construction, the version and the loaded manifest together *)

Module ConstructionFacts.
Import NadiRenderer Shapes.

Section WithRuntime.
Context {rt : Runtime}.

Lemma init_outcome (w : World) (attrs : Attributes) (loaded : value) :
  settings w = Configured attrs ->
  outcome (_load_manifest w) = Return loaded ->
  outcome (__init__ w)
  = Return {| ssr_url := match attr_NADI_SSR_URL attrs with
                         | Some url => url
                         | None => "http://localhost:13714"
                         end;
              ssr_enabled := match attr_NADI_SSR_ENABLED attrs with
                             | Some v => v
                             | None => VBool false
                             end;
              manifest := loaded |}.
Proof.
  unfold __init__, getattr, outcome. intros Hs. rewrite Hs.
  destruct (_load_manifest w) as [tl rl]. simpl. now intros ->.
Qed.

(** X1: constructing the renderer raises [ImproperlyConfigured], before
    any file is opened, when the settings are not configured, and returns
    otherwise.  Then [ssr_url] is the setting [NADI_SSR_URL] or
    [http://localhost:13714], [ssr_enabled] is the setting
    [NADI_SSR_ENABLED] or [False], the manifest is what the loader returns,
    and the only file opened is the manifest under [BASE_DIR], once, in
    text mode. *)
Theorem init_attributes (w : World) :
  exists loaded,
    outcome (_load_manifest w) = Return loaded
    /\ outcome (__init__ w)
       = match settings w with
         | Unconfigured => Raise ImproperlyConfigured
         | Configured attrs =>
             Return {| ssr_url := match attr_NADI_SSR_URL attrs with
                                  | Some url => url
                                  | None => "http://localhost:13714"
                                  end;
                       ssr_enabled := match attr_NADI_SSR_ENABLED attrs with
                                      | Some v => v
                                      | None => VBool false
                                      end;
                       manifest := loaded |}
         end
    /\ trace (__init__ w)
       = match BASE_DIR (settings w) with
         | Some base => [Open (div (div (div base "static") "build") "manifest.json") "r"]
         | None => []
         end.
Proof.
  eexists. split; [apply LoaderFacts.load_manifest_outcome|]. split.
  - destruct (settings w) as [|attrs] eqn:Hs.
    + unfold __init__, getattr. now rewrite Hs.
    + apply (init_outcome w attrs _ Hs), LoaderFacts.load_manifest_outcome.
  - unfold __init__, getattr, _load_manifest, manifest_path, open_read, attr, trace.
    destruct (settings w) as [|attrs]; simpl; [reflexivity|].
    destruct (attr_BASE_DIR attrs) as [base|]; simpl; [|reflexivity].
    destruct (files w _) as [content|]; simpl; [|reflexivity].
    destruct (json_load content); reflexivity.
Qed.

(** X2: with the settings configured, when the manifest file cannot be
    read or does not decode, the renderer is constructed with the empty
    manifest: its scripts are the fallback reference and its styles the
    empty string. *)
Theorem init_without_manifest (w : World) :
  is_configured (settings w) = true ->
  manifest_unavailable w ->
  exists self,
    outcome (__init__ w) = Return self
    /\ manifest self = VDict []
    /\ _get_scripts self = Return fallback_script
    /\ _get_styles self = Return "".
Proof.
  intros Hs Hno. destruct (settings w) as [|attrs] eqn:Hw; [discriminate|].
  eexists. split.
  - eapply init_outcome; [exact Hw | apply LoaderFacts.load_manifest_outcome].
  - assert (Hl : match manifest_bytes w with
                 | Some content =>
                     match json_load content with Return v => v | Raise _ => VDict [] end
                 | None => VDict []
                 end = VDict []).
    { unfold manifest_unavailable in Hno.
      destruct (manifest_bytes w) as [content|]; [|reflexivity].
      specialize (Hno content eq_refl). now destruct (json_load content). }
    simpl. unfold _get_scripts, _get_styles. simpl. rewrite Hl. repeat split.
Qed.

(** X3: with the settings configured, when the manifest file decodes to a
    documented manifest, the constructed renderer's scripts and styles are
    the references of that manifest's entries. *)
Theorem init_with_documented_manifest (w : World) (content : list Byte.byte)
    (entries : list (string * value)) :
  is_configured (settings w) = true ->
  manifest_bytes w = Some content ->
  json_load content = Return (VDict entries) ->
  conforms (VDict entries) = true ->
  exists self,
    outcome (__init__ w) = Return self
    /\ _get_scripts self = Return (scripts_spec entries)
    /\ _get_styles self = Return (styles_spec entries).
Proof.
  intros Hs Hb Hj Hc. destruct (settings w) as [|attrs] eqn:Hw; [discriminate|].
  eexists. split.
  - eapply init_outcome; [exact Hw | apply LoaderFacts.load_manifest_outcome].
  - rewrite Hb, Hj. split.
    + now apply BuilderFacts.get_scripts_documented.
    + now apply BuilderFacts.get_styles_documented.
Qed.

(** X4: [_get_version] never raises: it returns the digest of the bytes
    of the manifest file under [BASE_DIR], and [dev] when [BASE_DIR] is
    not set or the file is not there. *)
Theorem get_version_value (w : World) (self : t) :
  outcome (_get_version w self)
  = Return (match BASE_DIR (settings w) with
            | Some base =>
                match files w (div (div (div base "static") "build") "manifest.json") with
                | Some content => md5_hexdigest content
                | None => "dev"
                end
            | None => "dev"
            end).
Proof.
  rewrite LoaderFacts.get_version_outcome.
  unfold version_spec, manifest_bytes, manifest_path, attr.
  destruct (settings w) as [|attrs]; [reflexivity|]. simpl.
  now destruct (attr_BASE_DIR attrs).
Qed.

End WithRuntime.
End ConstructionFacts.

(** ** The middleware: the headers it leaves alone *)

Module NestingFacts.
Import NadiMiddleware.

Section WithFramework.
Context {fw : Framework}.

(** X21: the middleware changes nothing but the two headers: every other
    header and the body are those of the inner handler's response;
    [X-Nadi-Version] is [0.2.0] even if the handler set another value, and
    [X-CSRF-Token] is the token, over any the handler set, when [X-Nadi]
    has a non-empty value. *)
Theorem call_all_headers (self : t) (request : HttpRequest) (name : string) :
  headers (__call__ self request) name
  = (if String.eqb name "X-CSRF-Token"
        && match headers_get request "X-Nadi" with
           | Some v => negb (String.eqb v "")
           | None => false
           end
     then Some (get_token request)
     else if String.eqb name "X-Nadi-Version" then Some "0.2.0"
     else headers (get_response self request) name)
  /\ content (__call__ self request) = content (get_response self request).
Proof.
  unfold __call__, header_truthy.
  destruct (headers_get request "X-Nadi") as [v|]; simpl.
  - destruct (String.eqb v ""); simpl.
    + rewrite andb_false_r. split; reflexivity.
    + rewrite andb_true_r. split; reflexivity.
  - rewrite andb_false_r. split; reflexivity.
Qed.

End WithFramework.

End NestingFacts.

(** ** The further properties in the concrete environments *)

Module Checks.
Import NadiRenderer Shapes.

Lemma init_without_manifest_witness :
  exists self,
    outcome (__init__ (Sample.world (Some "not json") Sample.unreachable)) = Return self
    /\ manifest self = VDict []
    /\ _get_scripts self = Return fallback_script
    /\ _get_styles self = Return "".
Proof.
  assert (Hno : manifest_unavailable (Sample.world (Some "not json") Sample.unreachable)).
  { intros content Hc. injection Hc as <-. reflexivity. }
  exact (ConstructionFacts.init_without_manifest
           (Sample.world (Some "not json") Sample.unreachable) eq_refl Hno).
Defined.

Lemma init_with_documented_manifest_witness :
  exists self,
    outcome (__init__ (rt := scenario_runtime)
               (Sample.world (Some scenario_text) Sample.unreachable)) = Return self
    /\ manifest self = Sample.scenario_manifest
    /\ _get_scripts (rt := scenario_runtime) self = Return (script_tag "main.abc123.js")
    /\ _get_styles (rt := scenario_runtime) self = Return (link_tag "main.xyz.css").
Proof.
  destruct (ConstructionFacts.init_with_documented_manifest (rt := scenario_runtime)
              (Sample.world (Some scenario_text) Sample.unreachable)
              (Sample.bytes scenario_text)
              [("main.ts", VDict [("file", VStr "main.abc123.js");
                                  ("isEntry", VBool true);
                                  ("css", VList [VStr "main.xyz.css"])]);
               ("util.ts", VDict [("file", VStr "util.def456.js")])]
              eq_refl eq_refl eq_refl eq_refl) as (self & Hinit & Hscripts & Hstyles).
  exists self. repeat split; try assumption.
  injection Hinit as <-. reflexivity.
Defined.

Lemma get_scripts_truthy_entries_witness :
  _get_scripts (Sample.renderer loose_manifest) = Return (script_tag "main.js").
Proof.
  exact (ShapeFacts.get_scripts_truthy_entries
           (Sample.renderer loose_manifest) _ eq_refl eq_refl).
Defined.


Lemma get_styles_references_witness :
  _get_styles Sample.scenario_renderer = Return (link_tag "main.xyz.css").
Proof.
  exact (ShapeFacts.get_styles_references Sample.scenario_renderer _ eq_refl eq_refl).
Defined.

(** A [css] that is the string [a.c] gives one reference per character;
    a record that is a list without [css] in it gives none. *)
Lemma get_styles_iterates_witness :
  _get_styles (Sample.renderer notes_manifest)
  = Return (link_tag "a" ++ newline ++ link_tag "." ++ newline ++ link_tag "c").
Proof.
  exact (ShapeFacts.get_styles_iterates
           (Sample.renderer notes_manifest) _ eq_refl eq_refl).
Defined.

Lemma render_builder_error_witness :
  outcome (render (Sample.world None Sample.html_and_head)
             (Sample.renderer (VDict [("a.ts", VDict [("isEntry", VBool true)])]))
             Sample.page_request "Home" VNone VNone)
  = Raise (KeyError "file")
  /\ ssr_calls
       (trace (render (Sample.world None Sample.html_and_head)
                 (Sample.renderer (VDict [("a.ts", VDict [("isEntry", VBool true)])]))
                 Sample.page_request "Home" VNone VNone)) = 0.
Proof.
  exact (DispatchFacts.render_builder_error
           (Sample.world None Sample.html_and_head)
           (Sample.renderer (VDict [("a.ts", VDict [("isEntry", VBool true)])]))
           Sample.page_request "Home" VNone VNone (KeyError "file")
           eq_refl (or_introl eq_refl)).
Defined.


Lemma render_ssr_disabled_witness :
  trace (render (Sample.world None Sample.html_and_head)
           {| ssr_url := "http://localhost:13714"; ssr_enabled := VBool false;
              manifest := Sample.scenario_manifest |}
           Sample.page_request "Home" VNone (VDict [("ssr", VBool true)]))
  = [Call "_get_scripts"; Call "_get_styles"]
  /\ outcome (render (Sample.world None Sample.html_and_head)
                {| ssr_url := "http://localhost:13714"; ssr_enabled := VBool false;
                   manifest := Sample.scenario_manifest |}
                Sample.page_request "Home" VNone (VDict [("ssr", VBool true)]))
     = Return (HtmlContext (VStr "nadi/app.html")
                 (Sample.scenario_context (VStr "") (VStr ""))).
Proof.
  exact (DispatchFacts.render_ssr_disabled
           (Sample.world None Sample.html_and_head)
           {| ssr_url := "http://localhost:13714"; ssr_enabled := VBool false;
              manifest := Sample.scenario_manifest |}
           Sample.page_request "Home" VNone [("ssr", VBool true)]
           Sample.scenario_scripts Sample.scenario_styles
           eq_refl eq_refl eq_refl eq_refl).
Defined.

Lemma render_ssr_request_witness :
  trace (render (Sample.world None Sample.unreachable) Sample.scenario_renderer
           Sample.page_request "Home" (VDict [("page", VInt 2)]) (VDict []))
  = [Call "_get_scripts"; Call "_get_styles";
     Post "http://localhost:13714/render"
       (VDict [("component", VStr "Home"); ("props", VDict [("page", VInt 2)])]) 2].
Proof.
  exact (DispatchFacts.render_ssr_request
           (Sample.world None Sample.unreachable) Sample.scenario_renderer
           Sample.page_request "Home" (VDict [("page", VInt 2)]) []
           Sample.scenario_scripts Sample.scenario_styles
           eq_refl eq_refl eq_refl eq_refl eq_refl eq_refl).
Defined.

Lemma render_bad_options_witness :
  outcome (render (Sample.world None Sample.html_and_head) Sample.scenario_renderer
             Sample.page_request "Home" VNone (VStr "fast"))
  = Raise AttributeError
  /\ ssr_calls
       (trace (render (Sample.world None Sample.html_and_head) Sample.scenario_renderer
                 Sample.page_request "Home" VNone (VStr "fast"))) = 0.
Proof.
  exact (DispatchFacts.render_bad_options
           (Sample.world None Sample.html_and_head) Sample.scenario_renderer
           Sample.page_request "Home" VNone (VStr "fast")
           Sample.scenario_scripts Sample.scenario_styles
           eq_refl eq_refl eq_refl eq_refl eq_refl).
Defined.

Lemma render_page_opens_no_file_witness :
  filter is_open
    (trace (render (Sample.world (Some "{}") Sample.html_and_head)
              Sample.scenario_renderer Sample.page_request "Home" VNone VNone))
  = [].
Proof.
  exact (DispatchFacts.render_page_opens_no_file
           (Sample.world (Some "{}") Sample.html_and_head)
           Sample.scenario_renderer Sample.page_request "Home" VNone VNone eq_refl).
Defined.

Lemma render_xhr_reads_manifest_witness :
  trace (render (Sample.world (Some "{}") Sample.html_and_head)
           Sample.scenario_renderer Sample.xhr_request "Home" VNone VNone)
  = [Call "_get_version"; Open ["srv"; "static"; "build"; "manifest.json"] "rb"].
Proof.
  exact (DispatchFacts.render_xhr_reads_manifest
           (Sample.world (Some "{}") Sample.html_and_head)
           Sample.scenario_renderer Sample.xhr_request "Home" VNone VNone ["srv"]
           eq_refl eq_refl).
Defined.

Lemma render_page_context_witness :
  exists html head,
    outcome (render (Sample.world None Sample.html_and_head) Sample.scenario_renderer
               Sample.page_request "Home" VNone
               (VDict [("template", VStr "users.html")]))
    = Return (HtmlContext (VStr "users.html") (Sample.scenario_context html head)).
Proof.
  exact (DispatchFacts.render_page_context
           (Sample.world None Sample.html_and_head) Sample.scenario_renderer
           Sample.page_request "Home" VNone [("template", VStr "users.html")]
           Sample.scenario_scripts Sample.scenario_styles eq_refl eq_refl eq_refl).
Defined.

Lemma nadi_render_full_page_witness :
  (exists html head,
     outcome (nadi_render (Sample.world (Some "{}") Sample.html_and_head)
                Sample.scenario_renderer "Home" VNone)
     = Return (HtmlContext (VStr "nadi/app.html") (Sample.scenario_context html head)))
  /\ filter is_open
       (trace (nadi_render (Sample.world (Some "{}") Sample.html_and_head)
                 Sample.scenario_renderer "Home" VNone)) = []
  /\ filter (is_call "_get_version")
       (trace (nadi_render (Sample.world (Some "{}") Sample.html_and_head)
                 Sample.scenario_renderer "Home" VNone)) = [].
Proof.
  exact (DispatchFacts.nadi_render_full_page
           (Sample.world (Some "{}") Sample.html_and_head)
           Sample.scenario_renderer "Home" VNone
           Sample.scenario_scripts Sample.scenario_styles eq_refl eq_refl).
Defined.

(** The module-level renderer of a world without a manifest file, used by
    the template tag. *)
Example nadi_render_without_manifest :
  exists nadi,
    outcome (Shapes.nadi (Sample.world None Sample.html_and_head)) = Return nadi
    /\ outcome (nadi_render (Sample.world None Sample.html_and_head) nadi "Home" VNone)
       = Return (HtmlContext (VStr "nadi/app.html")
                   {| component := "Home"; props := "{}";
                      scripts := fallback_script; styles := "";
                      html := VStr "<div>x</div>"; head := VStr "<title>t</title>" |}).
Proof. eexists. split; reflexivity. Qed.

(** The middleware over a handler that set the headers itself. *)
Example call_overrides_handler :
  NadiMiddleware.headers
    (NadiMiddleware.__call__ eager_handler Sample.marker_request) "X-Nadi-Version"
  = Some "0.2.0"
  /\ NadiMiddleware.headers
       (NadiMiddleware.__call__ eager_handler Sample.marker_request) "X-CSRF-Token"
     = Some "k3yT0k3n"
  /\ NadiMiddleware.headers
       (NadiMiddleware.__call__ eager_handler Sample.page_request) "X-CSRF-Token"
     = Some "stale"
  /\ NadiMiddleware.headers
       (NadiMiddleware.__call__ eager_handler Sample.marker_request) "Content-Type"
     = Some "text/html".
Proof. repeat split. Qed.

End Checks.
